(** * auto_mode.suntime: sunrise and sunset calculator

    A shallow embedding of [src/auto_mode/suntime.py].  Python floats are
    IEEE 754 binary64 values, modelled by Rocq's primitive [float]; Python
    integers are [Z]; raised exceptions are threaded through a small error
    monad.  The trigonometric functions of the C library, which Python's
    [math] module wraps, are a parameter ([Libm]) of the calculator. *)

From Stdlib Require Import ZArith Floats Bool List String Lia.

Set Warnings "-inexact-float".
Open Scope Z_scope.

(** ** Exceptions and results *)

Inductive exn : Type :=
| ValueError
| OverflowError
| ZeroDivisionError
| SunTimeException (msg : string).

Inductive res (A : Type) : Type :=
| Ok (a : A)
| Raise (e : exn).

Arguments Ok {A} a.
Arguments Raise {A} e.

Definition bind {A B : Type} (c : res A) (k : A -> res B) : res B :=
  match c with
  | Ok a => k a
  | Raise e => Raise e
  end.

Notation "x <- c ;; k" := (bind c (fun x => k))
  (at level 61, c at next level, right associativity).

Definition is_ok {A : Type} (c : res A) : bool :=
  match c with Ok _ => true | Raise _ => false end.

(** An exception of the interpreter, as opposed to the module's own. *)
Definition builtin_exn (e : exn) : Prop :=
  match e with
  | SunTimeException _ => False
  | _ => True
  end.

Definition raises_only {A : Type} (P : exn -> Prop) (c : res A) : Prop :=
  match c with
  | Ok _ => True
  | Raise e => P e
  end.

(** ** Python numbers *)

Module Py.

Definition signed (s : bool) (m : positive) : Z :=
  if s then Z.neg m else Z.pos m.

(** [float(i)] for an integer [i], correctly rounded. *)
Definition i2f (z : Z) : float :=
  SF2Prim (binary_normalize prec emax z 0 false).

(** [a / b] on two integers (true division); exact operands below [2^53]. *)
Definition int_truediv (a b : Z) : float := (i2f a / i2f b)%float.

(** [x / y] on floats raises on a zero divisor. *)
Definition fdiv (x y : float) : res float :=
  if (y =? 0)%float then Raise ZeroDivisionError else Ok (x / y)%float.

(** [math.floor(x)]: an integer; not defined on NaN and the infinities. *)
Definition math_floor (x : float) : res Z :=
  match Prim2SF x with
  | S754_zero _ => Ok 0
  | S754_finite s m e => Ok (Z.shiftl (signed s m) e)
  | S754_infinity _ => Raise OverflowError
  | S754_nan => Raise ValueError
  end.

(** [int(x)]: truncation towards zero. *)
Definition int_of_float (x : float) : res Z :=
  match Prim2SF x with
  | S754_zero _ => Ok 0
  | S754_finite s m e =>
      Ok (if 0 <=? e then Z.shiftl (signed s m) e
          else Z.quot (signed s m) (2 ^ (- e)))
  | S754_infinity _ => Raise OverflowError
  | S754_nan => Raise ValueError
  end.

(** [round(x, 0)]: the nearest integral float, ties to even. *)
Definition round0 (x : float) : float :=
  match Prim2SF x with
  | S754_finite s m e =>
      if 0 <=? e then x
      else
        let d := 2 ^ (- e) in
        let q := Z.pos m / d in
        let r2 := 2 * (Z.pos m mod d) in
        let n := if r2 <? d then q
                 else if d <? r2 then q + 1
                 else if Z.even q then q else q + 1 in
        if n =? 0 then (if s then neg_zero else zero)
        else i2f (if s then - n else n)
  | _ => x
  end.

(** Comparison and addition of a number with an integer, as [_force_range]
    uses them on floats ([L], [RA], [UT]) and on integers ([int(UT)]). *)
Class Number (A : Type) : Type := {
  lt_int : A -> Z -> bool;
  ge_int : A -> Z -> bool;
  add_int : A -> Z -> A;
  sub_int : A -> Z -> A
}.

#[export] Instance Number_float : Number float := {
  lt_int v z := (v <? i2f z)%float;
  ge_int v z := (i2f z <=? v)%float;
  add_int v z := (v + i2f z)%float;
  sub_int v z := (v - i2f z)%float
}.

#[export] Instance Number_int : Number Z := {
  lt_int v z := v <? z;
  ge_int v z := z <=? v;
  add_int v z := v + z;
  sub_int v z := v - z
}.

End Py.
Import Py.

(** ** The C library behind [math] *)

Record Libm : Type := {
  c_sin : float -> float;
  c_cos : float -> float;
  c_tan : float -> float;
  c_atan : float -> float;
  c_asin : float -> float;
  c_acos : float -> float
}.

(** A [math] function of one argument: a NaN made from a number, or an
    infinity made from a finite number, is a domain error. *)
Definition math_1 (f : float -> float) (x : float) : res float :=
  let r := f x in
  if is_nan r && negb (is_nan x) then Raise ValueError
  else if is_infinity r && negb (is_nan x) && negb (is_infinity x)
       then Raise ValueError
       else Ok r.

Definition math_pi : float := 0x1.921fb54442d18p+1%float.

(** ** Dates, instants and time zones *)

Record date : Type := {
  year : Z;
  month : Z;
  day : Z
}.

Definition is_leap (y : Z) : bool :=
  (y mod 4 =? 0) && (negb (y mod 100 =? 0) || (y mod 400 =? 0)).

Definition days_in_month (y m : Z) : Z :=
  if m =? 2 then (if is_leap y then 29 else 28)
  else if (m =? 4) || (m =? 6) || (m =? 9) || (m =? 11) then 30
  else 31.

(** The invariant of a [datetime.date] object. *)
Definition valid_date (d : date) : bool :=
  (1 <=? year d) && (year d <=? 9999) &&
  (1 <=? month d) && (month d <=? 12) &&
  (1 <=? day d) && (day d <=? days_in_month (year d) (month d)).

(** Time zones ([tzinfo] objects): UTC, or a zone known by its name. *)
Inductive tzinfo : Type :=
| tzutc
| tzname (name : string).

Record datetime : Type := {
  dt_year : Z;
  dt_month : Z;
  dt_day : Z;
  dt_hour : Z;
  dt_minute : Z;
  dt_tzinfo : tzinfo
}.

(** [datetime.datetime(year, month, day, hour, minute, tzinfo=tz)]. *)
Definition datetime_new (y mo d h mi : Z) (tz : tzinfo) : res datetime :=
  if (1 <=? y) && (y <=? 9999) &&
     (1 <=? mo) && (mo <=? 12) &&
     (1 <=? d) && (d <=? days_in_month y mo) &&
     (0 <=? h) && (h <=? 23) &&
     (0 <=? mi) && (mi <=? 59)
  then Ok {| dt_year := y; dt_month := mo; dt_day := d;
             dt_hour := h; dt_minute := mi; dt_tzinfo := tz |}
  else Raise ValueError.

(** An aware datetime after [astimezone(zone)]: the same instant, given by
    its UTC fields, shown in [zone]. *)
Record local_datetime : Type := {
  utc_instant : datetime;
  shown_in : tzinfo
}.

Definition astimezone (dt : datetime) (zone : tzinfo) : local_datetime :=
  {| utc_instant := dt; shown_in := zone |}.

(** Order of two instants given by their UTC fields. *)
Definition datetime_key (dt : datetime) : Z :=
  (((dt_year dt * 13 + dt_month dt) * 32 + dt_day dt) * 24 + dt_hour dt) * 60
  + dt_minute dt.


(** ** suntime.py *)

Definition _force_range {A : Type} `{Number A} (v : A) (_max : Z) : A :=
  if lt_int v 0 then add_int v _max
  else if ge_int v _max then sub_int v _max
  else v.

Definition never_rises_msg : string :=
  "The sun never rises on this location (on the specified date)".

Definition never_sets_msg : string :=
  "The sun never sets on this location (on the specified date)".

Definition default_zenith : float := 90.8%float.

(** The local variables of [_calc_sun_time] when the hour angle is tested. *)
Record locals : Type := {
  v_N : Z;
  v_lngHour : float;
  v_t : float;
  v_M : float;
  v_L : float;
  v_RA : float;
  v_sinDec : float;
  v_cosDec : float;
  v_cosH : float
}.

Section Calculator.

Variable libm : Libm.

Definition math_sin := math_1 (c_sin libm).
Definition math_cos := math_1 (c_cos libm).
Definition math_tan := math_1 (c_tan libm).
Definition math_atan := math_1 (c_atan libm).
Definition math_asin := math_1 (c_asin libm).
Definition math_acos := math_1 (c_acos libm).

Definition TO_RAD : float := (math_pi / 180.0)%float.

(** Step 1 (lines 66 to 70): the day of the year. *)
Definition day_of_year (d : date) : res Z :=
  N1 <- math_floor (int_truediv (275 * month d) 9) ;;
  N2 <- math_floor (int_truediv (month d + 9) 12) ;;
  y4 <- math_floor (int_truediv (year d) 4) ;;
  q <- math_floor (int_truediv (year d - 4 * y4 + 2) 3) ;;
  let N3 := 1 + q in
  Ok (N1 - (N2 * N3) + day d - 30).

Open Scope float_scope.

(** Steps 1 to 7a (lines 60 to 107): up to the cosine of the local hour
    angle. *)
Definition hour_angle (lat lon : float) (d : date) (isRiseTime : bool)
    (zenith : float) : res locals :=
  N <- day_of_year d ;;
  let lngHour := lon / 15 in
  let t := if isRiseTime then i2f N + ((6 - lngHour) / 24)
           else i2f N + ((18 - lngHour) / 24) in
  let M := (0.9856 * t) - 3.289 in
  s1 <- math_sin (TO_RAD * M) ;;
  s2 <- math_sin (TO_RAD * 2 * M) ;;
  let L := M + (1.916 * s1) + (0.020 * s2) + 282.634 in
  let L := _force_range L 360 in
  tanL <- math_tan (TO_RAD * L) ;;
  a <- math_atan (0.91764 * tanL) ;;
  let RA := (1 / TO_RAD) * a in
  let RA := _force_range RA 360 in
  fL <- math_floor (L / 90) ;;
  let Lquadrant := (fL * 90)%Z in
  fRA <- math_floor (RA / 90) ;;
  let RAquadrant := (fRA * 90)%Z in
  let RA := RA + i2f (Lquadrant - RAquadrant) in
  let RA := RA / 15 in
  sL <- math_sin (TO_RAD * L) ;;
  let sinDec := 0.39782 * sL in
  asD <- math_asin sinDec ;;
  cosDec <- math_cos asD ;;
  cz <- math_cos (TO_RAD * zenith) ;;
  slat <- math_sin (TO_RAD * lat) ;;
  clat <- math_cos (TO_RAD * lat) ;;
  cosH <- fdiv (cz - (sinDec * slat)) (cosDec * clat) ;;
  Ok {| v_N := N; v_lngHour := lngHour; v_t := t; v_M := M; v_L := L;
        v_RA := RA; v_sinDec := sinDec; v_cosDec := cosDec; v_cosH := cosH |}.

(** Steps 7b to 9 (lines 116 to 130): the event in UTC decimal hours, after
    [_force_range]. *)
Definition utc_hours (isRiseTime : bool) (l : locals) : res float :=
  ac <- math_acos (v_cosH l) ;;
  let H := if isRiseTime then 360 - (1 / TO_RAD) * ac
           else (1 / TO_RAD) * ac in
  let H := H / 15 in
  let T := H + v_RA l - (0.06571 * v_t l) - 6.622 in
  let UT := T - v_lngHour l in
  Ok (_force_range UT 24).

(** Steps 10 and 11 (lines 132 to 144): hour, minute, the corner case and
    the result. *)
Definition build_result (d : date) (UT : float) : res datetime :=
  iUT <- int_of_float UT ;;
  let hr := _force_range iUT 24 in
  let min := round0 ((UT - i2f iUT) * 60) in
  let '(hr, min) := if min =? 60 then ((hr + 1)%Z, 0) else (hr, min) in
  let '(hr, dy) := if (hr =? 24)%Z then (0%Z, (day d + 1)%Z)
                   else (hr, day d) in
  imin <- int_of_float min ;;
  datetime_new (year d) (month d) dy hr imin tzutc.

(** The whole function: the three parts, and [None] between the first two
    when the cosine is above 1 or below -1 (lines 109 to 114). *)
Definition _calc_sun_time (lat lon : float) (d : date) (isRiseTime : bool)
    (zenith : float) : res (option datetime) :=
  l <- hour_angle lat lon d isRiseTime zenith ;;
  if 1 <? v_cosH l then Ok None
  else if v_cosH l <? -1 then Ok None
  else
    UT <- utc_hours isRiseTime l ;;
    dt <- build_result d UT ;;
    Ok (Some dt).

Close Scope float_scope.

(** *** The two operations and their defaults

    The process environment: the current date and the zone of the system.
    [tz.tzlocal()] reads the zone, [datetime.date.today()] the date. *)
Record World : Type := {
  today : date;
  system_zone : tzinfo
}.

Definition tz_tzlocal (w : World) : tzinfo := system_zone w.
Definition date_today (w : World) : date := today w.

(** The module after its [def] statements ran: each default value of a
    parameter is evaluated then, and kept in the function object. *)
Record suntime_module : Type := {
  sunrise_default_zone : tzinfo;
  sunset_default_zone : tzinfo
}.

Definition import_suntime (w : World) : suntime_module :=
  {| sunrise_default_zone := tz_tzlocal w;
     sunset_default_zone := tz_tzlocal w |}.

(** [datetime.date.today() if date is None else date]. *)
Definition resolve_date (w : World) (d : option date) : date :=
  match d with
  | None => date_today w
  | Some d => d
  end.

Definition get_local_sunrise_time (md : suntime_module) (w : World)
    (lat lon : float) (d : option date) (local_time_zone : option tzinfo)
    : res local_datetime :=
  let local_time_zone :=
    match local_time_zone with
    | Some z => z
    | None => sunrise_default_zone md
    end in
  let d := resolve_date w d in
  sr <- _calc_sun_time lat lon d true default_zenith ;;
  match sr with
  | None => Raise (SunTimeException never_rises_msg)
  | Some sr => Ok (astimezone sr local_time_zone)
  end.

Definition get_local_sunset_time (md : suntime_module) (w : World)
    (lat lon : float) (d : option date) (local_time_zone : option tzinfo)
    : res local_datetime :=
  let local_time_zone :=
    match local_time_zone with
    | Some z => z
    | None => sunset_default_zone md
    end in
  let d := resolve_date w d in
  ss <- _calc_sun_time lat lon d false default_zenith ;;
  match ss with
  | None => Raise (SunTimeException never_sets_msg)
  | Some ss => Ok (astimezone ss local_time_zone)
  end.

End Calculator.

(** ** A reference C library

    Binary64 implementations of the six functions, accurate to a few units
    in the last place on the arguments the calculator uses: reduction of
    the argument by multiples of pi/2 in three parts, then the Taylor
    polynomials of sine and cosine; the arctangent by reduction to a small
    argument around 0, 1/2, 1, 3/2 and infinity. *)

Module RefLibm.

Open Scope float_scope.

Definition pio2_1 : float := 0x1.921fb544p+0.
Definition pio2_2 : float := 0x1.0b4611a6p-34.
Definition pio2_2t : float := 0x1.3198a2e037073p-69.
Definition two_over_pi : float := 0x1.45f306dc9c883p-1.

Fixpoint horner (cs : list float) (z : float) : float :=
  match cs with
  | nil => 0
  | c :: cs' => c + z * horner cs' z
  end.

(** The coefficients [(-1)^k / (2k+1)!] and [(-1)^k / (2k)!]. *)
Fixpoint sin_coeffs (n : nat) (k : Z) (c : float) : list float :=
  match n with
  | O => nil
  | S n' =>
      c :: sin_coeffs n' (k + 1)%Z (- c / i2f ((2 * k + 2) * (2 * k + 3)))
  end.

Fixpoint cos_coeffs (n : nat) (k : Z) (c : float) : list float :=
  match n with
  | O => nil
  | S n' =>
      c :: cos_coeffs n' (k + 1)%Z (- c / i2f ((2 * k + 1) * (2 * k + 2)))
  end.

Definition ksin (r : float) : float := r * horner (sin_coeffs 10 0 1) (r * r).
Definition kcos (r : float) : float := horner (cos_coeffs 11 0 1) (r * r).

Definition reduce (x : float) : Z * float :=
  match int_of_float (round0 (x * two_over_pi)) with
  | Ok k =>
      let fk := i2f k in
      (k, ((x - fk * pio2_1) - fk * pio2_2) - fk * pio2_2t)
  | Raise _ => (0%Z, nan)
  end.

Definition sin (x : float) : float :=
  let '(k, r) := reduce x in
  match (k mod 4)%Z with
  | 0%Z => ksin r
  | 1%Z => kcos r
  | 2%Z => - ksin r
  | _ => - kcos r
  end.

Definition cos (x : float) : float :=
  let '(k, r) := reduce x in
  match (k mod 4)%Z with
  | 0%Z => kcos r
  | 1%Z => - ksin r
  | 2%Z => - kcos r
  | _ => ksin r
  end.

Definition tan (x : float) : float := sin x / cos x.

Fixpoint atan_coeffs (n : nat) (k : Z) (s : float) : list float :=
  match n with
  | O => nil
  | S n' => (s / i2f (2 * k + 1)) :: atan_coeffs n' (k + 1)%Z (- s)
  end.

Definition katan (t : float) : float :=
  t * horner (atan_coeffs 26 0 1) (t * t).

Definition atan_pos (x : float) : float :=
  if x <? 0.4375 then katan x
  else if x <? 0.6875 then
    0x1.dac670561bb4fp-2 + katan ((2 * x - 1) / (2 + x))
  else if x <? 1.1875 then
    0x1.921fb54442d18p-1 + katan ((x - 1) / (x + 1))
  else if x <? 2.4375 then
    0x1.f730bd281f69bp-1 + katan ((x - 1.5) / (1 + 1.5 * x))
  else 0x1.921fb54442d18p+0 + katan (- 1 / x).

Definition atan (x : float) : float :=
  if is_nan x then nan
  else if x <? 0 then - atan_pos (- x) else atan_pos x.

Definition asin (x : float) : float :=
  atan (x / PrimFloat.sqrt ((1 - x) * (1 + x))).

Definition acos (x : float) : float :=
  2 * atan (PrimFloat.sqrt ((1 - x) / (1 + x))).

Definition libm : Libm :=
  {| c_sin := sin; c_cos := cos; c_tan := tan;
     c_atan := atan; c_asin := asin; c_acos := acos |}.

(** Values of the six functions as correctly rounded libraries give them,
    and the test that a computed value is within four units in the last
    place of such a value. *)
Definition close (a b : float) : bool := abs (a - b) <=? 0x1p-50 * abs b.

Definition samples : list ((float -> float) * float * float) :=
  (sin, 0x0.0p+0, 0x0.0p+0) ::
  (sin, 0x1.4f8b588e368f1p-17, 0x1.4f8b588e1e8a2p-17) ::
  (sin, 0x1.0000000000000p-1, 0x1.eaee8744b05f0p-2) ::
  (sin, 0x1.0000000000000p+0, 0x1.aed548f090ceep-1) ::
  (sin, 0x1.73de69dec7cd3p+1, 0x1.df95fe339dac7p-3) ::
  (sin, 0x1.399999999999ap+2, -0x1.f70407622eba4p-1) ::
  (sin, 0x1.8cccccccccccdp+2, -0x1.54558dbbecd1dp-4) ::
  (sin, 0x1.9000000000000p+3, -0x1.0fa78cc21cfbbp-4) ::
  (sin, -0x1.8000000000000p+1, -0x1.210386db6d55bp-3) ::
  (cos, 0x0.0p+0, 0x1.0000000000000p+0) ::
  (cos, 0x1.0000000000000p-1, 0x1.c1528065b7d50p-1) ::
  (cos, 0x1.0000000000000p+0, 0x1.14a280fb5068cp-1) ::
  (cos, 0x1.921fb54442d18p+0, 0x1.1a62633145c07p-54) ::
  (cos, 0x1.95b2c3651619bp+0, -0x1.c98342262c41fp-7) ::
  (cos, 0x1.399999999999ap+2, 0x1.7dfa3277c1664p-3) ::
  (cos, -0x1.8000000000000p+1, -0x1.fae04be85e5d2p-1) ::
  (cos, 0x1.cc4648875abafp-1, 0x1.3eacfd47a31a7p-1) ::
  (tan, 0x1.0000000000000p-1, 0x1.17b4f5bf3474ap-1) ::
  (tan, 0x1.8000000000000p+0, 0x1.c33ed50b88777p+3) ::
  (tan, 0x1.399999999999ap+2, -0x1.511e9b3c687cbp+2) ::
  (tan, -0x1.0000000000000p+0, -0x1.8eb245cbee3a6p+0) ::
  (tan, 0x1.39537238200f9p+2, -0x1.592dd48461347p+2) ::
  (atan, 0x0.0p+0, 0x0.0p+0) ::
  (atan, 0x1.3333333333333p-2, 0x1.2a73a661eaf06p-2) ::
  (atan, 0x1.3333333333333p-1, 0x1.14b1dd5f90ce1p-1) ::
  (atan, 0x1.0000000000000p+0, 0x1.921fb54442d18p-1) ::
  (atan, 0x1.0000000000000p+1, 0x1.1b6e192ebbe44p+0) ::
  (atan, -0x1.e000000000000p+2, -0x1.7030cf9403197p+0) ::
  (atan, 0x1.2a05f20000000p+33, 0x1.921fb543d4de0p+0) ::
  (atan, -0x1.0000000000000p-2, -0x1.f5b75f92c80ddp-3) ::
  (asin, 0x0.0p+0, 0x0.0p+0) ::
  (asin, 0x1.975e2046c764bp-2, 0x1.a2f57734c5bddp-2) ::
  (asin, -0x1.999999999999ap-3, -0x1.9c618aa4ae23dp-3) ::
  (asin, -0x1.8f5c28f5c28f6p-2, -0x1.9a3f2b11964ecp-2) ::
  (asin, 0x1.999999999999ap-4, 0x1.9a49276037884p-4) ::
  (acos, 0x0.0p+0, 0x1.921fb54442d18p+0) ::
  (acos, 0x1.3333333333333p-2, 0x1.441f5ecbeef59p+0) ::
  (acos, -0x1.fae147ae147aep-1, 0x1.8001be1bc011bp+1) ::
  (acos, 0x1.0000000000000p+0, 0x0.0p+0) ::
  (acos, -0x1.0000000000000p+0, 0x1.921fb54442d18p+1) ::
  (acos, 0x1.05292c73e5b73p-1, 0x1.0917c2d264f64p+0) ::
  (acos, -0x1.2e147ae147ae1p-1, 0x1.19d663dfa08c5p+1) ::
  nil.

End RefLibm.

(** ** main.py

    The caller of the calculator.  Its surroundings are explicit: the
    content of the file at [DATA_PATH] (absent, or a JSON object whose
    values are numbers), what [time.time()] and [datetime.now] read, what the
    location manager answers at each poll, the number of [time.sleep(.1)]
    calls made and the commands handed to [os.system]. *)

Module Main.

Import Stdlib.Strings.Ascii.
#[local] Open Scope string_scope.

Inductive error : Type :=
| KeyError (key : string)
| AttributeError
| SunTime (e : exn).

Inductive outcome (A : Type) : Type :=
| Return (a : A)
| Fail (e : error).

Arguments Return {A} a.
Arguments Fail {A} e.

(** A dict with string keys, in insertion order. *)
Definition dict : Type := list (string * float).

Fixpoint dict_get (d : dict) (k : string) : option float :=
  match d with
  | nil => None
  | (k', v) :: rest => if String.eqb k k' then Some v else dict_get rest k
  end.

(** [d[k]]. *)
Definition getitem (d : dict) (k : string) : outcome float :=
  match dict_get d k with
  | Some v => Return v
  | None => Fail (KeyError k)
  end.

(** [d[k] = v]. *)
Fixpoint dict_set (d : dict) (k : string) (v : float) : dict :=
  match d with
  | nil => (k, v) :: nil
  | (k', v') :: rest =>
      if String.eqb k k' then (k, v) :: rest
      else (k', v') :: dict_set rest k v
  end.

(** The truth value of a number: zero, of either sign, is false. *)
Definition truthy (x : float) : bool := negb (x =? 0)%float.

Definition double_quote : string := String (Ascii.ascii_of_nat 34) EmptyString.

Definition cmd : string :=
  ("osascript -e 'tell application " ++ double_quote ++ "System Events"
   ++ double_quote ++ " to tell appearance preferences to set dark mode to {}'"
  )%string.

(** [template.format(arg)] for a template with one field [{}]. *)
Fixpoint str_format (template arg : string) : string :=
  match template with
  | String "{"%char (String "}"%char rest) => (arg ++ rest)%string
  | String c rest => String c (str_format rest arg)
  | EmptyString => EmptyString
  end.

Record machine : Type := {
  cache_file : option dict;
  naps : nat;
  issued : list string
}.

Definition os_system (command : string) (m : machine) : machine :=
  {| cache_file := cache_file m; naps := naps m;
     issued := (issued m ++ command :: nil)%list |}.

Definition set_dark_mode (m : machine) : machine :=
  os_system (str_format cmd "true") m.

Definition set_light_mode (m : machine) : machine :=
  os_system (str_format cmd "false") m.

(** *** [data_cache]

    [fun_] is the decorated function, running on a state of its own; it
    returns a pair of coordinates, or [(None, None)].  [now] is what the one
    call of [time.time()] reads. *)
Section DataCache.

Context {S : Type}.
Variable fun_ : S -> outcome (option (float * float)) * S.

Open Scope float_scope.

(** Lines 34 to 44: the cache did not answer. *)
Definition refresh (file : option dict) (data : dict) (s : S)
    : outcome (float * float) * option dict * S :=
  match fun_ s with
  | (Fail e, s') => (Fail e, file, s')
  | (Return None, s') =>
      match getitem data "lat" with
      | Fail e => (Fail e, file, s')
      | Return lat =>
          if truthy lat then
            match getitem data "lon" with
            | Fail e => (Fail e, file, s')
            | Return lon =>
                if truthy lon then (Return (lat, lon), file, s')
                else (Return (0, 0), file, s')
            end
          else (Return (0, 0), file, s')
      end
  | (Return (Some (lat, lon)), s') =>
      let data := dict_set data "lat" lat in
      let data := dict_set data "lon" lon in
      (Return (lat, lon), Some data, s')
  end.

(** Lines 25 to 44: [inner]. *)
Definition inner (now : float) (file : option dict) (s : S)
    : outcome (float * float) * option dict * S :=
  match file with
  | Some data =>
      match getitem data "ts" with
      | Fail e => (Fail e, file, s)
      | Return ts =>
          if now - ts <? i2f (3600 * 24) then
            match getitem data "lat" with
            | Fail e => (Fail e, file, s)
            | Return lat =>
                match getitem data "lon" with
                | Fail e => (Fail e, file, s)
                | Return lon => (Return (lat, lon), file, s)
                end
            end
          else refresh file data s
      end
  | None =>
      let data := ("ts", now) :: ("lon", 0) :: ("lat", 0) :: nil in
      refresh file data s
  end.

End DataCache.

Definition data_cache {S : Type}
    (fun_ : S -> outcome (option (float * float)) * S) :=
  inner fun_.

(** *** [get_coordinates]

    What the location manager answers at the poll number [i]; the poll
    number 10 is the one after the loop. *)
Record location_service : Type := {
  authorizationStatus : nat -> Z;
  location : nat -> option (float * float)
}.

Inductive flow : Type :=
| Next
| Break.

(** [for i in range(i, i + n)] over a body that may [break]. *)
Fixpoint for_range {St : Type} (body : nat -> St -> flow * St)
    (i n : nat) (s : St) : flow * St :=
  match n with
  | O => (Next, s)
  | Datatypes.S n' =>
      match body i s with
      | (Break, s') => (Break, s')
      | (Next, s') => for_range body (Datatypes.S i) n' s'
      end
  end.

(** The test of line 55: not authorised, or no location yet. *)
Definition not_ready (svc : location_service) (i : nat) : bool :=
  negb (authorizationStatus svc i =? 3)%Z ||
  match location svc i with None => true | Some _ => false end.

(** The body of the loop of lines 54 to 57: one more nap when the manager
    is not ready; no branch leaves the loop. *)
Definition poll (svc : location_service) (i : nat) (slept : nat)
    : flow * nat :=
  if not_ready svc i then (Next, Datatypes.S slept) else (Next, slept).

(** The function before decoration (lines 49 to 62); the [else] of the
    loop runs when the loop ended without [break]. *)
Definition get_coordinates_undecorated (svc : location_service) (slept : nat)
    : outcome (option (float * float)) * nat :=
  match for_range (poll svc) 0 10 slept with
  | (Next, slept') => (Return None, slept')
  | (Break, slept') =>
      match location svc 10 with
      | None => (Fail AttributeError, slept')
      | Some coord => (Return (Some coord), slept')
      end
  end.

Definition get_coordinates (svc : location_service) :=
  data_cache (get_coordinates_undecorated svc).

(** A function to decorate that never finds a position, and one that
    always finds the same one, counting its calls. *)
Definition nowhere (u : unit) : outcome (option (float * float)) * unit :=
  (Return None, u).

Definition always_at (lat lon : float) (calls : nat)
    : outcome (option (float * float)) * nat :=
  (Return (Some (lat, lon)), Datatypes.S calls).

(** *** [main]

    What [datetime.now] reads: the minute in UTC and the microseconds
    within it.  The results of the calculator have no seconds. *)
Record clock_reading : Type := {
  cr_minute : datetime;
  cr_micro : Z
}.

(** [now > dt] on aware datetimes. *)
Definition later_than (now : clock_reading) (dt : datetime) : bool :=
  (datetime_key dt <? datetime_key (cr_minute now))%Z ||
  ((datetime_key dt =? datetime_key (cr_minute now))%Z &&
   (0 <? cr_micro now)%Z).

Definition with_cache (m : machine) (file : option dict) (slept : nat)
    : machine :=
  {| cache_file := file; naps := slept; issued := issued m |}.

(** Lines 68 to 75 of [main]; [w_rise] and [w_set] are the environment at
    the two calls of the calculator. *)
Definition switch_mode (libm : Libm) (md : suntime_module)
    (w_rise w_set : World) (now : clock_reading) (lat lon : float)
    (m : machine) : outcome unit * machine :=
  match get_local_sunrise_time libm md w_rise lat lon None None with
  | Raise e => (Fail (SunTime e), m)
  | Ok sunrise =>
      match get_local_sunset_time libm md w_set lat lon None None with
      | Raise e => (Fail (SunTime e), m)
      | Ok sunset =>
          if later_than now (utc_instant sunset)
          then (Return tt, set_dark_mode m)
          else if later_than now (utc_instant sunrise)
          then (Return tt, set_light_mode m)
          else (Return tt, m)
      end
  end.

Definition main (libm : Libm) (md : suntime_module) (w_rise w_set : World)
    (svc : location_service) (time_time : float) (now : clock_reading)
    (m : machine) : outcome unit * machine :=
  match get_coordinates svc time_time (cache_file m) (naps m) with
  | (Fail e, file, slept) => (Fail e, with_cache m file slept)
  | (Return (lat, lon), file, slept) =>
      switch_mode libm md w_rise w_set now lat lon (with_cache m file slept)
  end.

(** A manager that is authorised and has a position at every poll, and
    a machine before the first run. *)
Definition ready_service : location_service :=
  {| authorizationStatus := fun _ => 3;
     location := fun _ => Some (52.5, 13.4)%float |}.

Definition fresh_machine : machine :=
  {| cache_file := None; naps := O; issued := nil |}.

End Main.

(** ** Calendar references for the day of the year

    The number of days of the year in the months before the month number
    [n + 1], and the ordinal of a date in its year, both by the Gregorian
    lengths of the months. *)

Fixpoint days_before (y : Z) (n : nat) : Z :=
  match n with
  | O => 0
  | S k => days_before y k + days_in_month y (Z.of_nat n)
  end.

Definition ordinal (d : date) : Z :=
  days_before (year d) (Z.to_nat (month d - 1)) + day d.

(** A year the formula of step 1 takes for a leap year although it is
    none: a multiple of 4 that the Gregorian rule excludes (1900, 2100). *)
Definition taken_for_leap (y : Z) : bool := (y mod 4 =? 0) && negb (is_leap y).

(** [math.floor(a / b)] is the integer quotient, tested on one pair. *)
Definition floor_div_ok (b a : Z) : bool :=
  match math_floor (int_truediv a b) with
  | Ok q => q =? a / b
  | Raise _ => false
  end.

Definition floor_div_ok_from (lo n b : Z) : bool :=
  forallb (fun k => floor_div_ok b (lo + Z.of_nat k)) (seq 0 (Z.to_nat n)).

(** ** Inputs of the scenarios

    The instants are compared by their minute of the day; two states of
    the process environment serve the calls without explicit arguments. *)

Definition mkdate (y m d : Z) : date := {| year := y; month := m; day := d |}.

Definition minute_of_day (dt : datetime) : Z := dt_hour dt * 60 + dt_minute dt.

Definition greenwich_world : World :=
  {| today := mkdate 2023 1 1; system_zone := tzname "Europe/London" |}.

Definition tokyo_world : World :=
  {| today := mkdate 2023 1 2; system_zone := tzname "Asia/Tokyo" |}.

(** * Properties *)

(** ** The reference C library on sample arguments *)

Lemma RefLibm_samples_close :
  forallb (fun '(f, x, y) => RefLibm.close (f x) y) RefLibm.samples = true.
Proof. vm_compute. reflexivity. Qed.

(** ** Which exceptions the calculation can raise *)

Lemma raises_only_bind {A B : Type} (P : exn -> Prop) (c : res A)
    (k : A -> res B) :
  raises_only P c -> (forall a, raises_only P (k a)) ->
  raises_only P (x <- c ;; k x).
Proof.
  intros Hc Hk. destruct c as [a | e]; simpl; [apply Hk | exact Hc].
Qed.

Lemma math_1_builtin (f : float -> float) (x : float) :
  raises_only builtin_exn (math_1 f x).
Proof.
  unfold math_1.
  destruct (is_nan (f x) && negb (is_nan x)); simpl; [exact I |].
  destruct (is_infinity (f x) && negb (is_nan x) && negb (is_infinity x));
    simpl; exact I.
Qed.

Lemma math_floor_builtin (x : float) : raises_only builtin_exn (math_floor x).
Proof. unfold math_floor. destruct (Prim2SF x); simpl; exact I. Qed.

Lemma int_of_float_builtin (x : float) :
  raises_only builtin_exn (int_of_float x).
Proof. unfold int_of_float. destruct (Prim2SF x); simpl; exact I. Qed.

Lemma fdiv_builtin (x y : float) : raises_only builtin_exn (fdiv x y).
Proof. unfold fdiv. destruct (y =? 0)%float; simpl; exact I. Qed.

Lemma datetime_new_builtin (y mo d h mi : Z) (tz : tzinfo) :
  raises_only builtin_exn (datetime_new y mo d h mi tz).
Proof.
  unfold datetime_new.
  match goal with |- context [if ?c then _ else _] => destruct c end;
    simpl; exact I.
Qed.

Create HintDb builtin.

#[local] Hint Resolve math_1_builtin math_floor_builtin int_of_float_builtin
  fdiv_builtin datetime_new_builtin : builtin.

Ltac step_builtin :=
  repeat first
    [ apply raises_only_bind; [solve [auto with builtin] | intro]
    | solve [auto with builtin]
    | exact I ].

Section Raises.

Variable libm : Libm.

Lemma day_of_year_builtin (d : date) :
  raises_only builtin_exn (day_of_year d).
Proof. unfold day_of_year. step_builtin. Qed.

Lemma hour_angle_builtin lat lon d isRiseTime zenith :
  raises_only builtin_exn (hour_angle libm lat lon d isRiseTime zenith).
Proof.
  unfold hour_angle, math_sin, math_cos, math_tan, math_atan, math_asin.
  apply raises_only_bind; [apply day_of_year_builtin | intro].
  step_builtin.
Qed.

Lemma utc_hours_builtin isRiseTime l :
  raises_only builtin_exn (utc_hours libm isRiseTime l).
Proof. unfold utc_hours, math_acos. step_builtin. Qed.

Lemma build_result_builtin d UT :
  raises_only builtin_exn (build_result d UT).
Proof.
  unfold build_result.
  apply raises_only_bind; [auto with builtin | intro iUT].
  destruct (_ =? 60)%float; destruct (_ =? 24)%Z; step_builtin.
Qed.

Lemma _calc_sun_time_builtin lat lon d isRiseTime zenith :
  raises_only builtin_exn (_calc_sun_time libm lat lon d isRiseTime zenith).
Proof.
  unfold _calc_sun_time.
  apply raises_only_bind; [apply hour_angle_builtin | intro l].
  destruct (1 <? v_cosH l)%float; [exact I |].
  destruct (v_cosH l <? -1)%float; [exact I |].
  apply raises_only_bind; [apply utc_hours_builtin | intro UT].
  apply raises_only_bind; [apply build_result_builtin | intro dt].
  exact I.
Qed.

(** [_calc_sun_time] returns [None] exactly when the hour angle was computed
    and its cosine is above 1 or below -1. *)
Lemma _calc_sun_time_none lat lon d isRiseTime zenith :
  _calc_sun_time libm lat lon d isRiseTime zenith = Ok None <->
  exists l, hour_angle libm lat lon d isRiseTime zenith = Ok l /\
            ((1 <? v_cosH l)%float = true \/ (v_cosH l <? -1)%float = true).
Proof.
  unfold _calc_sun_time.
  destruct (hour_angle libm lat lon d isRiseTime zenith) as [l | e]; simpl.
  - destruct (1 <? v_cosH l)%float eqn:Hhi.
    + split; [intros _; exists l; auto | reflexivity].
    + destruct (v_cosH l <? -1)%float eqn:Hlo.
      * split; [intros _; exists l; auto | reflexivity].
      * split.
        -- destruct (utc_hours libm isRiseTime l) as [UT | e]; simpl;
             [destruct (build_result d UT); simpl |]; discriminate.
        -- intros [l' [Hl [Hc | Hc]]]; injection Hl as <-; congruence.
  - split; [discriminate | intros [l [Hl _]]; discriminate].
Qed.

(** A result of [_calc_sun_time] went through every step. *)
Lemma _calc_sun_time_some lat lon d isRiseTime zenith dt :
  _calc_sun_time libm lat lon d isRiseTime zenith = Ok (Some dt) ->
  exists l UT,
    hour_angle libm lat lon d isRiseTime zenith = Ok l /\
    (1 <? v_cosH l)%float = false /\ (v_cosH l <? -1)%float = false /\
    utc_hours libm isRiseTime l = Ok UT /\ build_result d UT = Ok dt.
Proof.
  unfold _calc_sun_time.
  destruct (hour_angle libm lat lon d isRiseTime zenith) as [l | e]; simpl;
    [| discriminate].
  destruct (1 <? v_cosH l)%float eqn:Hhi; [discriminate |].
  destruct (v_cosH l <? -1)%float eqn:Hlo; [discriminate |].
  destruct (utc_hours libm isRiseTime l) as [UT | e] eqn:HUT; simpl;
    [| discriminate].
  destruct (build_result d UT) as [dt' | e] eqn:Hb; simpl; [| discriminate].
  intros [= <-]. exists l, UT. auto.
Qed.

End Raises.

(** The date fields of a result are the input's, the day possibly one more. *)
Lemma datetime_new_fields y mo d h mi tz dt :
  datetime_new y mo d h mi tz = Ok dt ->
  dt_year dt = y /\ dt_month dt = mo /\ dt_day dt = d /\
  dt_hour dt = h /\ dt_minute dt = mi /\ dt_tzinfo dt = tz.
Proof.
  unfold datetime_new.
  match goal with |- context [if ?c then _ else _] => destruct c end;
    [| discriminate].
  intros [= <-]. simpl. auto 6.
Qed.

Lemma build_result_fields d UT dt :
  build_result d UT = Ok dt ->
  dt_year dt = year d /\ dt_month dt = month d /\
  (dt_day dt = day d \/ dt_day dt = day d + 1) /\ dt_tzinfo dt = tzutc.
Proof.
  unfold build_result.
  destruct (int_of_float UT) as [iUT | e]; simpl; [| discriminate].
  destruct (_ =? 60)%float; destruct (_ =? 24)%Z;
    match goal with
    | |- context [int_of_float ?m] =>
        destruct (int_of_float m) as [imin | e]; simpl; [| discriminate]
    end;
    intro Hnew; apply datetime_new_fields in Hnew;
    destruct Hnew as (Hy & Hm & Hd & _ & _ & Hz); auto.
Qed.

(** ** The failure reason of the two operations *)

Section Reasons.

Variable libm : Libm.
Variables (md : suntime_module) (w : World).

(** The sunrise operation raises [SunTimeException] exactly when
    [_calc_sun_time] returned [None], and then with the sunrise message. *)
Lemma sunrise_raises lat lon d zone msg :
  get_local_sunrise_time libm md w lat lon d zone
    = Raise (SunTimeException msg) <->
  msg = never_rises_msg /\
  _calc_sun_time libm lat lon (resolve_date w d) true default_zenith = Ok None.
Proof.
  unfold get_local_sunrise_time.
  set (d' := resolve_date w d).
  pose proof (_calc_sun_time_builtin libm lat lon d' true default_zenith) as Hb.
  destruct (_calc_sun_time libm lat lon d' true default_zenith)
    as [[dt | ] | e]; simpl in *.
  - split; [discriminate | intros [_ H]; discriminate].
  - split; [intros [= <-]; auto | intros [-> _]; reflexivity].
  - split; [intros [= ->]; destruct Hb | intros [_ H]; discriminate].
Qed.

Lemma sunset_raises lat lon d zone msg :
  get_local_sunset_time libm md w lat lon d zone
    = Raise (SunTimeException msg) <->
  msg = never_sets_msg /\
  _calc_sun_time libm lat lon (resolve_date w d) false default_zenith = Ok None.
Proof.
  unfold get_local_sunset_time.
  set (d' := resolve_date w d).
  pose proof (_calc_sun_time_builtin libm lat lon d' false default_zenith) as Hb.
  destruct (_calc_sun_time libm lat lon d' false default_zenith)
    as [[dt | ] | e]; simpl in *.
  - split; [discriminate | intros [_ H]; discriminate].
  - split; [intros [= <-]; auto | intros [-> _]; reflexivity].
  - split; [intros [= ->]; destruct Hb | intros [_ H]; discriminate].
Qed.

End Reasons.

Lemma messages_differ : never_rises_msg <> never_sets_msg.
Proof. discriminate. Qed.

(** C1 (the code departs from the claim): whatever the C library computes,
    when the hour-angle cosine of a sunrise request is below -1, the case
    the source comments as the sun never setting, the sunrise operation
    still fails with the message that the sun never rises, and never with
    the message that it never sets. *)
Theorem sunrise_reason_when_cosH_below_minus_one
    (libm : Libm) (md : suntime_module) (w : World) (lat lon : float)
    (d : option date) (zone : option tzinfo) (l : locals) :
  hour_angle libm lat lon (resolve_date w d) true default_zenith = Ok l ->
  (v_cosH l <? -1)%float = true ->
  get_local_sunrise_time libm md w lat lon d zone
    = Raise (SunTimeException never_rises_msg) /\
  get_local_sunrise_time libm md w lat lon d zone
    <> Raise (SunTimeException never_sets_msg).
Proof.
  intros Hl Hc.
  assert (Hr : get_local_sunrise_time libm md w lat lon d zone
               = Raise (SunTimeException never_rises_msg)).
  { apply sunrise_raises. split; [reflexivity |].
    apply _calc_sun_time_none. exists l. auto. }
  split; [exact Hr |].
  rewrite Hr. discriminate.
Qed.

(** Svalbard at the summer solstice: the cosine is about -2.11. *)
Lemma sunrise_reason_svalbard_midsummer :
  exists l,
    hour_angle RefLibm.libm 78 15 (mkdate 2023 6 21) true default_zenith
      = Ok l /\
    (v_cosH l <? -1)%float = true /\
    get_local_sunrise_time RefLibm.libm (import_suntime greenwich_world)
      greenwich_world 78 15 (Some (mkdate 2023 6 21)) None
      = Raise (SunTimeException never_rises_msg).
Proof.
  eexists. split; [vm_compute; reflexivity |].
  split; [vm_compute; reflexivity |].
  refine (proj1 (sunrise_reason_when_cosH_below_minus_one RefLibm.libm
            (import_suntime greenwich_world) greenwich_world 78 15
            (Some (mkdate 2023 6 21)) None _ _ _)).
  - vm_compute. reflexivity.
  - vm_compute. reflexivity.
Defined.

(** ** The day rollover at the end of a month *)

(** When the minutes round up to 24:00 on the last day of a month, the day
    passed to the [datetime] constructor does not exist. *)
Lemma build_result_month_end (d : date) (UT : float) :
  int_of_float UT = Ok 23 ->
  (round0 ((UT - i2f 23) * 60) =? 60)%float = true ->
  day d = days_in_month (year d) (month d) ->
  build_result d UT = Raise ValueError.
Proof.
  intros Hi Hr Hd. unfold build_result. rewrite Hi. simpl bind.
  change (_force_range 23 24) with 23.
  rewrite Hr. change (23 + 1 =? 24) with true. cbv iota beta.
  change (int_of_float 0) with (Ok (A := Z) 0%Z). simpl bind.
  unfold datetime_new. change (24 =? 24) with true. cbv iota beta.
  match goal with
  | |- (if ?c then _ else _) = _ => destruct c eqn:Hc
  end; [| reflexivity].
  rewrite !andb_true_iff, !Z.leb_le in Hc. lia.
Qed.

(** C2 (the code departs from the claim): on 2023-04-30 at latitude 0,
    longitude -89.8 the sunset falls at 23:59:44 UTC; the minutes round to 60,
    the hour to 24, the day becomes 31, and the operation raises [ValueError],
    which is not the module's [SunTimeException]. *)
Theorem sunset_month_end_raises_ValueError
    (md : suntime_module) (w : World) (zone : option tzinfo) :
  valid_date (mkdate 2023 4 30) = true /\
  get_local_sunset_time RefLibm.libm md w 0 (-89.8)
    (Some (mkdate 2023 4 30)) zone = Raise ValueError.
Proof. split; vm_compute; reflexivity. Qed.

(** ** The scenarios of the specification *)

(** C3: for latitude 51.5074, longitude -0.1278 on 2023-01-01 the two
    operations return instants of that day in UTC, the sunrise within one
    minute of 08:06 and the sunset within one minute of 16:01 (they are
    08:07 and 16:02); the decimal hours [UT] behind them, about 8.1107 and
    16.0301, are within a sixtieth of 8.1 and of 16 + 1/60 as well. *)
Theorem london_new_year_2023 (md : suntime_module) (w : World) :
  exists sr ss : datetime,
    get_local_sunrise_time RefLibm.libm md w 51.5074 (-0.1278)
      (Some (mkdate 2023 1 1)) (Some tzutc) = Ok (astimezone sr tzutc) /\
    get_local_sunset_time RefLibm.libm md w 51.5074 (-0.1278)
      (Some (mkdate 2023 1 1)) (Some tzutc) = Ok (astimezone ss tzutc) /\
    (dt_year sr, dt_month sr, dt_day sr) = (2023, 1, 1) /\
    (dt_year ss, dt_month ss, dt_day ss) = (2023, 1, 1) /\
    Z.abs (minute_of_day sr - (8 * 60 + 6)) <= 1 /\
    Z.abs (minute_of_day ss - (16 * 60 + 1)) <= 1 /\
    (exists lr UTr,
        hour_angle RefLibm.libm 51.5074 (-0.1278) (mkdate 2023 1 1) true
          default_zenith = Ok lr /\
        utc_hours RefLibm.libm true lr = Ok UTr /\
        ((8.0834 <=? UTr) && (UTr <=? 8.1166))%float = true) /\
    (exists ls UTs,
        hour_angle RefLibm.libm 51.5074 (-0.1278) (mkdate 2023 1 1) false
          default_zenith = Ok ls /\
        utc_hours RefLibm.libm false ls = Ok UTs /\
        ((16.0001 <=? UTs) && (UTs <=? 16.0333))%float = true).
Proof.
  eexists. eexists.
  split; [vm_compute; reflexivity |].
  split; [vm_compute; reflexivity |].
  split; [reflexivity |]. split; [reflexivity |].
  split; [vm_compute; discriminate |].
  split; [vm_compute; discriminate |].
  split; eexists; eexists;
    (split; [vm_compute; reflexivity |]);
    (split; [vm_compute; reflexivity |]);
    vm_compute; reflexivity.
Qed.

(** C4: at latitude 78, longitude 15 the sunset operation fails with
    [SunTimeException] on 2023-06-21 (midnight sun) and the sunrise operation
    fails with [SunTimeException] on 2023-12-21 (polar night). *)
Theorem svalbard_solstices (md : suntime_module) (w : World)
    (zone : option tzinfo) :
  get_local_sunset_time RefLibm.libm md w 78 15
    (Some (mkdate 2023 6 21)) zone = Raise (SunTimeException never_sets_msg) /\
  get_local_sunrise_time RefLibm.libm md w 78 15
    (Some (mkdate 2023 12 21)) zone
    = Raise (SunTimeException never_rises_msg).
Proof. split; vm_compute; reflexivity. Qed.

(** C5 (the code departs from the claim): at the equator, longitude 90, on
    2023-06-30 the sunrise falls at 23:59:59 UTC; the result would be day 31
    of June, and the sunrise operation raises [ValueError] instead of
    returning an instant.  The day before, the same request succeeds. *)
Theorem equator_sunrise_fails_at_month_end
    (md : suntime_module) (w : World) (zone : option tzinfo) :
  valid_date (mkdate 2023 6 30) = true /\
  ((-180 <=? 90) && (90 <=? 180))%float = true /\
  get_local_sunrise_time RefLibm.libm md w 0 90
    (Some (mkdate 2023 6 30)) zone = Raise ValueError /\
  is_ok (get_local_sunrise_time RefLibm.libm md w 0 90
           (Some (mkdate 2023 6 29)) zone) = true.
Proof. repeat split; vm_compute; reflexivity. Qed.

(** ** Normalisation by [_force_range] *)

(** On integers one shift brings into [[0, max)] what lies within one period
    of it, and nothing else. *)
Lemma _force_range_int_within (v m : Z) :
  - m <= v < 2 * m -> 0 <= _force_range v m < m.
Proof.
  intros Hv. unfold _force_range; simpl.
  destruct (Z.ltb_spec v 0); [lia |].
  destruct (Z.leb_spec m v); lia.
Qed.

Lemma _force_range_int_beyond (v m : Z) :
  0 < m -> 2 * m <= v -> m <= _force_range v m.
Proof.
  intros Hm Hv. unfold _force_range; simpl.
  destruct (Z.ltb_spec v 0); [lia |].
  destruct (Z.leb_spec m v); lia.
Qed.

(** C6 (the code departs from the claim): at latitude 73.75, longitude -180
    on 2023-02-01 a sunrise exists (the result is 00:04 UTC), the sun's true
    longitude [L] lies in [[0, 360)], but [UT] is about 48.07 before
    [_force_range] and about 24.07 after it, outside [[0, 24)].  At latitude
    75.2, longitude 180 on 2023-11-05 the cosine for the sunset is within
    [[-1, 1]] and [UT] is about -0.11 after [_force_range]; the minute is then
    negative and the calculation raises [ValueError]. *)
Theorem utc_hours_outside_range_after_force_range :
  (exists (l : locals) (UT : float) (dt : datetime),
      hour_angle RefLibm.libm 73.75 (-180) (mkdate 2023 2 1) true
        default_zenith = Ok l /\
      ((0 <=? v_L l) && (v_L l <? 360))%float = true /\
      utc_hours RefLibm.libm true l = Ok UT /\
      (24 <=? UT)%float = true /\
      _calc_sun_time RefLibm.libm 73.75 (-180) (mkdate 2023 2 1) true
        default_zenith = Ok (Some dt) /\
      (dt_hour dt, dt_minute dt) = (0, 4)) /\
  (exists (l : locals) (UT : float),
      hour_angle RefLibm.libm 75.2 180 (mkdate 2023 11 5) false
        default_zenith = Ok l /\
      ((-1 <=? v_cosH l) && (v_cosH l <=? 1))%float = true /\
      utc_hours RefLibm.libm false l = Ok UT /\
      (UT <? 0)%float = true /\
      _calc_sun_time RefLibm.libm 75.2 180 (mkdate 2023 11 5) false
        default_zenith = Raise ValueError).
Proof.
  split.
  - eexists. eexists. eexists.
    split; [vm_compute; reflexivity |].
    split; [vm_compute; reflexivity |].
    split; [vm_compute; reflexivity |].
    split; [vm_compute; reflexivity |].
    split; vm_compute; reflexivity.
  - eexists. eexists.
    split; [vm_compute; reflexivity |].
    split; [vm_compute; reflexivity |].
    split; [vm_compute; reflexivity |].
    split; vm_compute; reflexivity.
Qed.

(** ** Date fields of a result *)

Lemma result_fields_of_calc
    (libm : Libm) (lat lon : float) (d : date) (isRiseTime : bool)
    (zenith : float) (dt : datetime) :
  _calc_sun_time libm lat lon d isRiseTime zenith = Ok (Some dt) ->
  dt_year dt = year d /\ dt_month dt = month d /\
  (dt_day dt = day d \/ dt_day dt = day d + 1).
Proof.
  intros H. apply _calc_sun_time_some in H.
  destruct H as (l & UT & _ & _ & _ & _ & Hb).
  apply build_result_fields in Hb. tauto.
Qed.

(** C10: every result of [_calc_sun_time] has the year and the month of the
    input date, and its day or the day after it as a bare increment: no
    carry into the month or the year is applied. *)
Theorem result_keeps_year_and_month
    (libm : Libm) (lat lon : float) (d : date) (isRiseTime : bool)
    (zenith : float) (dt : datetime) :
  _calc_sun_time libm lat lon d isRiseTime zenith = Ok (Some dt) ->
  dt_year dt = year d /\ dt_month dt = month d /\
  (dt_day dt = day d \/ dt_day dt = day d + 1).
Proof. apply result_fields_of_calc. Qed.

(** The increment happens: 2023-01-30 at the equator, longitude 92.58. *)
Lemma result_keeps_year_and_month_rollover :
  exists dt,
    _calc_sun_time RefLibm.libm 0 92.58 (mkdate 2023 1 30) true default_zenith
      = Ok (Some dt) /\
    dt_day dt = 31 /\
    dt_year dt = 2023 /\ dt_month dt = 1 /\ (dt_day dt = 30 \/ dt_day dt = 31).
Proof.
  eexists. split; [vm_compute; reflexivity |].
  split; [reflexivity |].
  apply (result_keeps_year_and_month RefLibm.libm 0 92.58 (mkdate 2023 1 30)
           true default_zenith).
  vm_compute. reflexivity.
Defined.

(** ** Longitudes a full turn apart *)




(** ** Order of sunrise and sunset *)




(** ** Default values of the optional parameters *)

(** C9, as stated, fails: the module is loaded while the system zone is
    Europe/London, the zone then changes to Asia/Tokyo, and a call without
    an explicit zone still shows its result in Europe/London. *)
Lemma default_zone_is_not_read_at_the_call :
  get_local_sunrise_time RefLibm.libm (import_suntime greenwich_world)
    tokyo_world 51.5074 (-0.1278) None None
  <>
  get_local_sunrise_time RefLibm.libm (import_suntime greenwich_world)
    tokyo_world 51.5074 (-0.1278) (Some (date_today tokyo_world))
    (Some (tz_tzlocal tokyo_world)).
Proof. vm_compute. discriminate. Qed.

(** C9, amended: a call without an explicit date uses the current date at
    the moment of the call; a call without an explicit zone uses the zone
    that [tz.tzlocal()] gave when the function was defined, whatever the
    system zone is at the moment of the call. *)
Theorem defaults_date_per_call_zone_at_definition
    (libm : Libm) (w0 w : World) (lat lon : float) :
  get_local_sunrise_time libm (import_suntime w0) w lat lon None None
    = get_local_sunrise_time libm (import_suntime w0) w lat lon
        (Some (date_today w)) (Some (tz_tzlocal w0)) /\
  get_local_sunset_time libm (import_suntime w0) w lat lon None None
    = get_local_sunset_time libm (import_suntime w0) w lat lon
        (Some (date_today w)) (Some (tz_tzlocal w0)).
Proof. split; reflexivity. Qed.

(** * Further properties of suntime.py *)

(** ** The day of the year (step 1) *)

Lemma floor_div_ok_from_sound (lo n b a : Z) :
  floor_div_ok_from lo n b = true ->
  lo <= a < lo + n ->
  math_floor (int_truediv a b) = Ok (a / b).
Proof.
  unfold floor_div_ok_from. rewrite forallb_forall. intros Hall Ha.
  specialize (Hall (Z.to_nat (a - lo))).
  replace (lo + Z.of_nat (Z.to_nat (a - lo))) with a in Hall by lia.
  assert (Hin : In (Z.to_nat (a - lo)) (seq 0 (Z.to_nat n)))
    by (apply in_seq; lia).
  specialize (Hall Hin). unfold floor_div_ok in Hall.
  destruct (math_floor (int_truediv a b)) as [q | e]; [| discriminate].
  apply Z.eqb_eq in Hall. congruence.
Qed.

Lemma floor_year_by_4 (y : Z) :
  1 <= y <= 9999 -> math_floor (int_truediv y 4) = Ok (y / 4).
Proof.
  intros Hy. apply (floor_div_ok_from_sound 1 9999); [| lia].
  vm_compute. reflexivity.
Qed.

Lemma floor_by_9 (a : Z) :
  0 <= a <= 3300 -> math_floor (int_truediv a 9) = Ok (a / 9).
Proof.
  intros Ha. apply (floor_div_ok_from_sound 0 3301); [| lia].
  vm_compute. reflexivity.
Qed.

Lemma floor_by_12 (a : Z) :
  0 <= a <= 21 -> math_floor (int_truediv a 12) = Ok (a / 12).
Proof.
  intros Ha. apply (floor_div_ok_from_sound 0 22); [| lia].
  vm_compute. reflexivity.
Qed.

Lemma floor_by_3 (a : Z) :
  0 <= a <= 5 -> math_floor (int_truediv a 3) = Ok (a / 3).
Proof.
  intros Ha. apply (floor_div_ok_from_sound 0 6); [| lia].
  vm_compute. reflexivity.
Qed.

(** The value of step 1 as integer arithmetic. *)
Lemma day_of_year_quotients (d : date) :
  1 <= year d <= 9999 -> 1 <= month d <= 12 ->
  day_of_year d =
  Ok (275 * month d / 9
      - (month d + 9) / 12 * (1 + (year d mod 4 + 2) / 3) + day d - 30).
Proof.
  intros Hy Hm. unfold day_of_year.
  rewrite floor_by_9 by lia. cbn [bind].
  rewrite floor_by_12 by lia. cbn [bind].
  rewrite floor_year_by_4 by lia. cbn [bind].
  assert (Hr : year d - 4 * (year d / 4) = year d mod 4)
    by (rewrite Z.mod_eq; lia).
  rewrite Hr.
  pose proof (Z.mod_pos_bound (year d) 4 ltac:(lia)) as Hb.
  rewrite floor_by_3 by lia. cbn [bind].
  reflexivity.
Qed.

Lemma is_leap_mod_4 (y : Z) : is_leap y = true -> y mod 4 = 0.
Proof.
  unfold is_leap. intros H. apply andb_prop in H. destruct H as [H _].
  apply Z.eqb_eq in H. exact H.
Qed.

(** Evaluates the months before a given one, the leap test apart. *)
Ltac months_before Hleap :=
  match goal with
  | |- context [days_before ?y ?n] =>
      let n' := eval vm_compute in n in
      let v := eval cbv -[is_leap Z.add year] in (days_before y n') in
      change (days_before y n) with v
  end;
  rewrite ?Hleap; cbv beta iota delta [andb negb Z.leb Z.eqb Z.compare
    Pos.compare Pos.compare_cont Pos.eqb];
  repeat match goal with
    | |- context [?a / ?b] =>
        let v := eval vm_compute in (a / b) in change (a / b) with v
    end.

(** X1: on a date with a year from 1 to 9999 and a month from 1 to 12,
    step 1 does not raise, and its value [N] is the Gregorian ordinal of the
    date in its year, except from March on in a year that is a multiple of
    4 without being a leap year (1900, 2100), where it is one more. *)
Theorem day_of_year_is_ordinal (d : date) :
  1 <= year d <= 9999 -> 1 <= month d <= 12 ->
  day_of_year d =
  Ok (ordinal d
      + if taken_for_leap (year d) && (3 <=? month d) then 1 else 0).
Proof.
  intros Hy Hm. rewrite day_of_year_quotients by assumption.
  f_equal. unfold ordinal, taken_for_leap.
  assert (Hr : year d mod 4 = 0 \/ year d mod 4 = 1 \/ year d mod 4 = 2
               \/ year d mod 4 = 3)
    by (pose proof (Z.mod_pos_bound (year d) 4 ltac:(lia)); lia).
  assert (Hc : month d = 1 \/ month d = 2 \/ month d = 3 \/ month d = 4
               \/ month d = 5 \/ month d = 6 \/ month d = 7
               \/ month d = 8 \/ month d = 9 \/ month d = 10
               \/ month d = 11 \/ month d = 12) by lia.
  destruct (is_leap (year d)) eqn:Hleap.
  - apply is_leap_mod_4 in Hleap as H4. rewrite H4. clear Hr.
    repeat destruct Hc as [Hc | Hc]; rewrite Hc; months_before Hleap; lia.
  - repeat destruct Hr as [Hr | Hr]; rewrite Hr;
      repeat destruct Hc as [Hc | Hc]; rewrite Hc; months_before Hleap; lia.
Qed.

(** Evidence for the theorem above: 2100-03-01 is the day 60 of its year and
    step 1 gives 61. *)
Lemma day_of_year_is_ordinal_2100 :
  day_of_year (mkdate 2100 3 1) = Ok 61 /\ ordinal (mkdate 2100 3 1) = 60.
Proof.
  split; [| reflexivity].
  rewrite (day_of_year_is_ordinal (mkdate 2100 3 1)); simpl; [| lia | lia].
  reflexivity.
Defined.

(** ** When there is no event *)

(** X2: each operation raises [SunTimeException] exactly when the hour
    angle was computed without error and its cosine is above 1 or below -1;
    the message is then the one of the operation. *)
Theorem operations_raise_SunTimeException_iff
    (libm : Libm) (md : suntime_module) (w : World) (lat lon : float)
    (d : option date) (zone : option tzinfo) (msg : string) :
  (get_local_sunrise_time libm md w lat lon d zone
     = Raise (SunTimeException msg) <->
   msg = never_rises_msg /\
   exists l,
     hour_angle libm lat lon (resolve_date w d) true default_zenith = Ok l /\
     ((1 <? v_cosH l)%float = true \/ (v_cosH l <? -1)%float = true)) /\
  (get_local_sunset_time libm md w lat lon d zone
     = Raise (SunTimeException msg) <->
   msg = never_sets_msg /\
   exists l,
     hour_angle libm lat lon (resolve_date w d) false default_zenith = Ok l /\
     ((1 <? v_cosH l)%float = true \/ (v_cosH l <? -1)%float = true)).
Proof.
  split.
  - rewrite sunrise_raises, _calc_sun_time_none. reflexivity.
  - rewrite sunset_raises, _calc_sun_time_none. reflexivity.
Qed.

(** X3: [_calc_sun_time] itself never raises [SunTimeException], whatever
    its docstring says: an exception that leaves it is a [ValueError], an
    [OverflowError] or a [ZeroDivisionError]. *)
Theorem _calc_sun_time_raises_builtin_only
    (libm : Libm) (lat lon : float) (d : date) (isRiseTime : bool)
    (zenith : float) (e : exn) :
  _calc_sun_time libm lat lon d isRiseTime zenith = Raise e ->
  e = ValueError \/ e = OverflowError \/ e = ZeroDivisionError.
Proof.
  intros H.
  pose proof (_calc_sun_time_builtin libm lat lon d isRiseTime zenith) as Hb.
  rewrite H in Hb. destruct e; simpl in Hb; tauto.
Qed.

Lemma _calc_sun_time_raises_builtin_only_month_end :
  ValueError = ValueError \/ ValueError = OverflowError
  \/ ValueError = ZeroDivisionError.
Proof.
  apply (_calc_sun_time_raises_builtin_only RefLibm.libm 0 90
           (mkdate 2023 6 30) true default_zenith).
  vm_compute. reflexivity.
Defined.

(** ** The corner case of step 11 *)

(** X4: when the event falls in the last half minute of the UTC day (the
    hour is 23 and the minutes round to 60), the result is 00:00 of the day
    after the input date within the same month, and on the last day of a
    month the calculation raises [ValueError]. *)
Theorem last_half_minute_rolls_over
    (libm : Libm) (lat lon : float) (d : date) (isRiseTime : bool)
    (zenith : float) (l : locals) (UT : float) :
  valid_date d = true ->
  hour_angle libm lat lon d isRiseTime zenith = Ok l ->
  (1 <? v_cosH l)%float = false -> (v_cosH l <? -1)%float = false ->
  utc_hours libm isRiseTime l = Ok UT ->
  int_of_float UT = Ok 23 ->
  (round0 ((UT - i2f 23) * 60) =? 60)%float = true ->
  _calc_sun_time libm lat lon d isRiseTime zenith =
  if day d <? days_in_month (year d) (month d)
  then Ok (Some {| dt_year := year d; dt_month := month d;
                   dt_day := day d + 1; dt_hour := 0; dt_minute := 0;
                   dt_tzinfo := tzutc |})
  else Raise ValueError.
Proof.
  intros Hv Hl Hhi Hlo HUT Hi Hr.
  unfold _calc_sun_time. rewrite Hl. cbn [bind]. rewrite Hhi, Hlo, HUT.
  cbn [bind]. unfold build_result. rewrite Hi. cbn [bind].
  change (_force_range 23 24) with 23. rewrite Hr.
  change (23 + 1 =? 24) with true. cbv iota beta.
  change (int_of_float 0) with (Ok (A := Z) 0%Z). cbn [bind].
  unfold valid_date in Hv. rewrite !andb_true_iff, !Z.leb_le in Hv.
  unfold datetime_new.
  destruct (Z.ltb_spec (day d) (days_in_month (year d) (month d))) as [Hd | Hd].
  - match goal with
    | |- context [if ?c then _ else _] =>
        replace c with true; [reflexivity |]
    end.
    symmetry. rewrite !andb_true_iff, !Z.leb_le. lia.
  - match goal with
    | |- context [if ?c then _ else _] => destruct c eqn:Hc
    end; [| reflexivity].
    rewrite !andb_true_iff, !Z.leb_le in Hc. lia.
Qed.

Lemma last_half_minute_rolls_over_january :
  exists dt,
    _calc_sun_time RefLibm.libm 0 92.58 (mkdate 2023 1 30) true default_zenith
      = Ok (Some dt) /\
    (dt_day dt, dt_hour dt, dt_minute dt) = (31, 0, 0).
Proof.
  eexists. split.
  - erewrite (last_half_minute_rolls_over RefLibm.libm 0 92.58
                (mkdate 2023 1 30) true default_zenith);
      [reflexivity | vm_compute; reflexivity ..].
  - reflexivity.
Defined.

(** ** [_force_range] on integers *)

(** X5: for a positive [max], [_force_range] brings an integer into
    [[0, max)] exactly when the integer lies in [[-max, 2 max)]: one period
    below or above the range, and no further. *)
Theorem _force_range_int_in_range_iff (v m : Z) :
  0 < m -> (0 <= _force_range v m < m <-> - m <= v < 2 * m).
Proof.
  intros Hm.
  unfold _force_range, lt_int, ge_int, add_int, sub_int, Number_int.
  destruct (Z.ltb_spec v 0); [lia |].
  destruct (Z.leb_spec m v); lia.
Qed.

Lemma _force_range_int_in_range_iff_hours :
  (0 <= _force_range 47 24 < 24) /\ ~ (0 <= _force_range 48 24 < 24).
Proof.
  split.
  - apply (_force_range_int_in_range_iff 47 24); lia.
  - intros H.
    pose proof (proj1 (_force_range_int_in_range_iff 48 24 eq_refl) H).
    lia.
Defined.

(** ** Shape of a result *)





(** * Properties of main.py *)

Section MainProperties.

Import Main.
Open Scope string_scope.

(** ** [get_coordinates] before decoration *)

Lemma for_range_poll (svc : location_service) (n i slept : nat) :
  for_range (poll svc) i n slept
  = (Next, (slept + List.length (filter (not_ready svc) (seq i n)))%nat).
Proof.
  revert i slept. induction n as [| n IH]; intros i slept; simpl.
  - f_equal. lia.
  - unfold poll at 1. destruct (not_ready svc i); rewrite IH; simpl;
      f_equal; lia.
Qed.

(** The loop ends without [break] and the [else] branch answers. *)
Lemma get_coordinates_undecorated_found_nothing
    (svc : location_service) (slept : nat) :
  get_coordinates_undecorated svc slept
  = (Return None,
     (slept + List.length (filter (not_ready svc) (seq 0 10)))%nat).
Proof.
  unfold get_coordinates_undecorated. rewrite for_range_poll. reflexivity.
Qed.

(** X7: whatever the location manager answers, [get_coordinates] before
    decoration returns [(None, None)]: the loop has no [break], so its
    [else] branch always runs and the lines that read the coordinate are
    never reached.  It naps once for each of the ten polls at which the
    manager was not ready, so ten times at most. *)
Theorem get_coordinates_undecorated_never_locates
    (svc : location_service) (slept : nat) :
  exists slept',
    get_coordinates_undecorated svc slept = (Return None, slept') /\
    slept' = (slept + List.length (filter (not_ready svc) (seq 0 10)))%nat /\
    (slept <= slept' <= slept + 10)%nat.
Proof.
  eexists. split; [apply get_coordinates_undecorated_found_nothing |].
  split; [reflexivity |].
  pose proof (filter_length_le (not_ready svc) (seq 0 10)) as Hle.
  rewrite length_seq in Hle. lia.
Qed.

(** ** [data_cache] *)

Lemma dict_get_set_same (d : dict) (k : string) (v : float) :
  dict_get (dict_set d k v) k = Some v.
Proof.
  induction d as [| [k' v'] d IH]; simpl.
  - rewrite String.eqb_refl. reflexivity.
  - destruct (String.eqb k k') eqn:E; simpl.
    + rewrite String.eqb_refl. reflexivity.
    + rewrite E. exact IH.
Qed.

Lemma dict_get_set_other (d : dict) (k k' : string) (v : float) :
  k <> k' -> dict_get (dict_set d k v) k' = dict_get d k'.
Proof.
  intros Hk. induction d as [| [k0 v0] d IH]; simpl.
  - destruct (String.eqb k' k) eqn:E; [| reflexivity].
    apply String.eqb_eq in E. congruence.
  - destruct (String.eqb k k0) eqn:E; simpl.
    + apply String.eqb_eq in E. subst k0.
      destruct (String.eqb k' k) eqn:E'; [| reflexivity].
      apply String.eqb_eq in E'. congruence.
    + destruct (String.eqb k' k0); [reflexivity | exact IH].
Qed.

Lemma getitem_found (d : dict) (k : string) (v : float) :
  dict_get d k = Some v -> getitem d k = Return v.
Proof. unfold getitem. intros ->. reflexivity. Qed.

Section Cache.

Context {S : Type}.
Variable fun_ : S -> outcome (option (float * float)) * S.

(** X8: while the file is less than a day old, the decorated function
    answers from the file: the wrapped function is not called (its state
    is untouched, whatever it is) and the file is not written. *)
Theorem fresh_cache_answers (now : float) (data : dict) (s : S)
    (ts lat lon : float) :
  dict_get data "ts" = Some ts ->
  dict_get data "lat" = Some lat ->
  dict_get data "lon" = Some lon ->
  (now - ts <? i2f (3600 * 24))%float = true ->
  data_cache fun_ now (Some data) s = (Return (lat, lon), Some data, s).
Proof.
  intros Hts Hlat Hlon Hfresh. unfold data_cache, inner.
  rewrite (getitem_found _ _ _ Hts), Hfresh.
  rewrite (getitem_found _ _ _ Hlat), (getitem_found _ _ _ Hlon).
  reflexivity.
Qed.

(** X9: with no file, a located position is returned and written with the
    time of the call; a later call less than a day after it returns the
    same position from the file, without calling the wrapped function. *)
Theorem first_run_writes_then_cache_answers (now now' : float) (s s1 s2 : S)
    (lat lon : float) :
  fun_ s = (Return (Some (lat, lon)), s1) ->
  (now' - now <? i2f (3600 * 24))%float = true ->
  exists data,
    data_cache fun_ now None s = (Return (lat, lon), Some data, s1) /\
    data = ("ts", now) :: ("lon", lon) :: ("lat", lat) :: nil /\
    data_cache fun_ now' (Some data) s2 = (Return (lat, lon), Some data, s2).
Proof.
  intros Hf Hfresh. eexists. split; [| split; [reflexivity |]].
  - unfold data_cache, inner, refresh. rewrite Hf. reflexivity.
  - apply (fresh_cache_answers now' _ s2 now lat lon);
      [reflexivity | reflexivity | reflexivity | exact Hfresh].
Qed.

(** X10: refreshing a file that is a day old or more keeps its old
    timestamp: the new position is written beside the old [ts], so as long
    as the clock stays a day or more past that [ts], every later call asks
    the wrapped function again instead of answering from the file. *)
Theorem stale_cache_keeps_its_timestamp (now : float) (data : dict)
    (s s1 : S) (ts lat lon : float) :
  dict_get data "ts" = Some ts ->
  (now - ts <? i2f (3600 * 24))%float = false ->
  fun_ s = (Return (Some (lat, lon)), s1) ->
  exists data',
    data_cache fun_ now (Some data) s = (Return (lat, lon), Some data', s1) /\
    dict_get data' "ts" = Some ts /\
    dict_get data' "lat" = Some lat /\
    dict_get data' "lon" = Some lon /\
    forall (now' : float) (s' s'' : S) (lat' lon' : float),
      (now' - ts <? i2f (3600 * 24))%float = false ->
      fun_ s' = (Return (Some (lat', lon')), s'') ->
      fst (fst (data_cache fun_ now' (Some data') s')) = Return (lat', lon').
Proof.
  intros Hts Hstale Hf.
  exists (dict_set (dict_set data "lat" lat) "lon" lon).
  assert (Hts' : dict_get (dict_set (dict_set data "lat" lat) "lon" lon) "ts"
                 = Some ts).
  { rewrite !dict_get_set_other by discriminate. exact Hts. }
  split; [| split; [exact Hts' | split; [| split]]].
  - unfold data_cache, inner. rewrite (getitem_found _ _ _ Hts), Hstale.
    unfold refresh. rewrite Hf. reflexivity.
  - rewrite dict_get_set_other by discriminate. apply dict_get_set_same.
  - apply dict_get_set_same.
  - intros now' s' s'' lat' lon' Hstale' Hf'.
    unfold data_cache, inner. rewrite (getitem_found _ _ _ Hts'), Hstale'.
    unfold refresh. rewrite Hf'. reflexivity.
Qed.

(** X11: when the wrapped function finds no position and the file is a
    day old or more, the file is left as it is and the cached position is
    returned only if its latitude and its longitude are both non-zero;
    otherwise the answer is [(0, 0)], also for a cached position on the
    equator or on the prime meridian. *)
Theorem no_position_falls_back (now : float) (data : dict) (s s1 : S)
    (ts lat lon : float) :
  dict_get data "ts" = Some ts ->
  dict_get data "lat" = Some lat ->
  dict_get data "lon" = Some lon ->
  (now - ts <? i2f (3600 * 24))%float = false ->
  fun_ s = (Return None, s1) ->
  data_cache fun_ now (Some data) s
  = (Return (if truthy lat && truthy lon then (lat, lon) else (0, 0)%float),
     Some data, s1).
Proof.
  intros Hts Hlat Hlon Hstale Hf. unfold data_cache, inner.
  rewrite (getitem_found _ _ _ Hts), Hstale. unfold refresh. rewrite Hf.
  rewrite (getitem_found _ _ _ Hlat), (getitem_found _ _ _ Hlon).
  destruct (truthy lat), (truthy lon); reflexivity.
Qed.

(** When the wrapped function finds no position the file is never written,
    and the answer is the one the decorator gives around [nowhere]. *)
Lemma no_position_leaves_file (now : float) (file : option dict) (s s1 : S) :
  fun_ s = (Return None, s1) ->
  exists s',
    data_cache fun_ now file s
    = (fst (fst (data_cache nowhere now file tt)), file, s').
Proof.
  intros Hf. unfold data_cache, inner.
  destruct file as [data |].
  - destruct (getitem data "ts") as [ts | e]; [| eexists; reflexivity].
    destruct (now - ts <? i2f (3600 * 24))%float.
    + destruct (getitem data "lat") as [lat | e]; [| eexists; reflexivity].
      destruct (getitem data "lon") as [lon | e]; eexists; reflexivity.
    + unfold refresh, nowhere. rewrite Hf.
      destruct (getitem data "lat") as [lat | e]; [| eexists; reflexivity].
      destruct (truthy lat); [| eexists; reflexivity].
      destruct (getitem data "lon") as [lon | e]; [| eexists; reflexivity].
      destruct (truthy lon); eexists; reflexivity.
  - unfold refresh, nowhere. rewrite Hf. eexists. reflexivity.
Qed.

End Cache.

(** Evidence for the theorems on [data_cache]. *)
Lemma fresh_cache_answers_example :
  data_cache (always_at 48.85 2.35) 1700003600
    (Some (("ts", 1700000000) :: ("lon", 13.4) :: ("lat", 52.5) :: nil)%float)
    O
  = (Return (52.5, 13.4)%float,
     Some (("ts", 1700000000) :: ("lon", 13.4) :: ("lat", 52.5) :: nil)%float,
     O).
Proof.
  apply (fresh_cache_answers (always_at 48.85 2.35) 1700003600 _ O
           1700000000 52.5 13.4);
    [reflexivity | reflexivity | reflexivity | vm_compute; reflexivity].
Defined.

Lemma first_run_writes_then_cache_answers_example :
  exists data,
    data_cache (always_at 48.85 2.35) 1700000000 None O
    = (Return (48.85, 2.35)%float, Some data, 1%nat) /\
    data = (("ts", 1700000000) :: ("lon", 2.35) :: ("lat", 48.85) :: nil)%float
    /\
    data_cache (always_at 48.85 2.35) 1700003600 (Some data) 1%nat
    = (Return (48.85, 2.35)%float, Some data, 1%nat).
Proof.
  apply (first_run_writes_then_cache_answers (always_at 48.85 2.35)
           1700000000 1700003600 O 1%nat 1%nat 48.85 2.35);
    [reflexivity | vm_compute; reflexivity].
Defined.

Lemma stale_cache_keeps_its_timestamp_example :
  exists data',
    data_cache (always_at 48.85 2.35) 1700100000
      (Some (("ts", 1700000000) :: ("lon", 13.4) :: ("lat", 52.5) :: nil)
         %float) O
    = (Return (48.85, 2.35)%float, Some data', 1%nat) /\
    dict_get data' "ts" = Some 1700000000%float /\
    fst (fst (data_cache (always_at 48.85 2.35) 1700100060 (Some data')
                1%nat))
    = Return (48.85, 2.35)%float /\
    snd (data_cache (always_at 48.85 2.35) 1700100060 (Some data') 1%nat)
    = 2%nat.
Proof.
  destruct (stale_cache_keeps_its_timestamp (always_at 48.85 2.35) 1700100000
              (("ts", 1700000000) :: ("lon", 13.4) :: ("lat", 52.5) :: nil)
              %float O 1%nat 1700000000 48.85 2.35)
    as (data' & Hrun & Hts & Hlat & Hlon & Hnext);
    [reflexivity | vm_compute; reflexivity | reflexivity |].
  exists data'. split; [exact Hrun |]. split; [exact Hts |].
  split.
  - apply (Hnext 1700100060%float 1%nat 2%nat);
      [vm_compute; reflexivity | reflexivity].
  - unfold data_cache, inner. rewrite (getitem_found _ _ _ Hts).
    replace (1700100060 - 1700000000 <? i2f (3600 * 24))%float with false
      by (vm_compute; reflexivity).
    reflexivity.
Defined.

Lemma no_position_falls_back_equator :
  data_cache nowhere 1700100000
    (Some (("ts", 1700000000) :: ("lon", 13.4) :: ("lat", 0) :: nil)%float) tt
  = (Return (0, 0)%float,
     Some (("ts", 1700000000) :: ("lon", 13.4) :: ("lat", 0) :: nil)%float,
     tt).
Proof.
  apply (no_position_falls_back nowhere 1700100000 _ tt tt 1700000000 0 13.4);
    [reflexivity | reflexivity | reflexivity | vm_compute; reflexivity
    | reflexivity].
Defined.

(** ** The decorated [get_coordinates] *)

(** X12: the decorated [get_coordinates] never writes the file, and its
    answer is the one of the decorator around a function that finds no
    position, whatever the location manager answers; with no file it
    answers [(0, 0)]. *)
Theorem get_coordinates_never_writes
    (svc : location_service) (now : float) (file : option dict)
    (slept : nat) :
  (exists slept',
      get_coordinates svc now file slept
      = (fst (fst (data_cache nowhere now file tt)), file, slept')) /\
  fst (fst (data_cache nowhere now None tt)) = Return (0, 0)%float.
Proof.
  split; [| reflexivity].
  unfold get_coordinates.
  apply (no_position_leaves_file _ now file slept
           (slept + List.length (filter (not_ready svc) (seq 0 10)))%nat).
  apply get_coordinates_undecorated_found_nothing.
Qed.

(** ** [main] *)

Lemma switch_mode_effect (libm : Libm) (md : suntime_module)
    (w_rise w_set : World) (now : clock_reading) (lat lon : float) :
  exists (r : outcome unit) (cmds : list string),
    (cmds = nil \/ cmds = str_format cmd "true" :: nil
     \/ cmds = str_format cmd "false" :: nil) /\
    (forall e, r = Fail e -> cmds = nil) /\
    forall m,
      switch_mode libm md w_rise w_set now lat lon m
      = (r, {| cache_file := cache_file m; naps := naps m;
               issued := (issued m ++ cmds)%list |}).
Proof.
  unfold switch_mode.
  destruct (get_local_sunrise_time libm md w_rise lat lon None None)
    as [sunrise | e].
  2:{ exists (Fail (SunTime e)), nil. split; [auto |]. split; [auto |].
      intros [f n i]; simpl. rewrite app_nil_r. reflexivity. }
  destruct (get_local_sunset_time libm md w_set lat lon None None)
    as [sunset | e].
  2:{ exists (Fail (SunTime e)), nil. split; [auto |]. split; [auto |].
      intros [f n i]; simpl. rewrite app_nil_r. reflexivity. }
  destruct (later_than now (utc_instant sunset)).
  - exists (Return tt), (str_format cmd "true" :: nil).
    split; [auto |]. split; [discriminate |]. reflexivity.
  - destruct (later_than now (utc_instant sunrise)).
    + exists (Return tt), (str_format cmd "false" :: nil).
      split; [auto |]. split; [discriminate |]. reflexivity.
    + exists (Return tt), nil. split; [auto |]. split; [discriminate |].
      intros [f n i]; simpl. rewrite app_nil_r. reflexivity.
Qed.

(** X13: a run of [main] hands at most one command to [os.system], the
    one that sets the dark mode or the one that sets the light mode, and
    none when it ends with an exception; it never writes the file. *)
Theorem main_issues_at_most_one_command
    (libm : Libm) (md : suntime_module) (w_rise w_set : World)
    (svc : location_service) (time_time : float) (now : clock_reading)
    (m : machine) :
  exists cmds : list string,
    issued (snd (main libm md w_rise w_set svc time_time now m))
    = (issued m ++ cmds)%list /\
    (cmds = nil \/ cmds = str_format cmd "true" :: nil
     \/ cmds = str_format cmd "false" :: nil) /\
    (forall e, fst (main libm md w_rise w_set svc time_time now m) = Fail e ->
               cmds = nil) /\
    cache_file (snd (main libm md w_rise w_set svc time_time now m))
    = cache_file m /\
    str_format cmd "true" <> str_format cmd "false".
Proof.
  unfold main.
  destruct (get_coordinates_never_writes svc time_time (cache_file m) (naps m))
    as [[slept' Hg] _].
  rewrite Hg.
  destruct (fst (fst (data_cache nowhere time_time (cache_file m) tt)))
    as [[lat lon] | e].
  - destruct (switch_mode_effect libm md w_rise w_set now lat lon)
      as (r & cmds & Hc & Hfail & Hrun).
    rewrite Hrun. exists cmds. simpl.
    split; [reflexivity |]. split; [exact Hc |]. split; [exact Hfail |].
    split; [reflexivity | discriminate].
  - exists nil. simpl. rewrite app_nil_r.
    split; [reflexivity |]. split; [auto |]. split; [auto |].
    split; [reflexivity | discriminate].
Qed.

(** X14: what [main] returns, the commands it issues and the file it
    leaves do not depend on the location manager: two runs that differ
    only in what the manager answers end alike, up to the naps taken. *)
Theorem main_ignores_location_service
    (libm : Libm) (md : suntime_module) (w_rise w_set : World)
    (svc svc' : location_service) (time_time : float) (now : clock_reading)
    (m : machine) :
  fst (main libm md w_rise w_set svc time_time now m)
  = fst (main libm md w_rise w_set svc' time_time now m) /\
  issued (snd (main libm md w_rise w_set svc time_time now m))
  = issued (snd (main libm md w_rise w_set svc' time_time now m)) /\
  cache_file (snd (main libm md w_rise w_set svc time_time now m))
  = cache_file (snd (main libm md w_rise w_set svc' time_time now m)).
Proof.
  unfold main.
  destruct (get_coordinates_never_writes svc time_time (cache_file m) (naps m))
    as [[s1 H1] _].
  destruct (get_coordinates_never_writes svc' time_time (cache_file m)
              (naps m)) as [[s2 H2] _].
  rewrite H1, H2.
  destruct (fst (fst (data_cache nowhere time_time (cache_file m) tt)))
    as [[lat lon] | e].
  - destruct (switch_mode_effect libm md w_rise w_set now lat lon)
      as (r & cmds & _ & _ & Hrun).
    rewrite !Hrun. simpl. auto.
  - simpl. auto.
Qed.

(** X15: with no file at [DATA_PATH], [main] decides for latitude 0 and
    longitude 0, wherever the machine is. *)
Theorem main_without_file_decides_for_origin
    (libm : Libm) (md : suntime_module) (w_rise w_set : World)
    (svc : location_service) (time_time : float) (now : clock_reading)
    (m : machine) :
  cache_file m = None ->
  exists slept,
    main libm md w_rise w_set svc time_time now m
    = switch_mode libm md w_rise w_set now 0 0 (with_cache m None slept).
Proof.
  intros Hnone. unfold main. rewrite Hnone.
  destruct (get_coordinates_never_writes svc time_time None (naps m))
    as [[slept' Hg] Ho].
  rewrite Hg, Ho. exists slept'. reflexivity.
Qed.

(** On 2023-01-01 at 19:00 UTC, with no file and a manager located in
    Berlin, the run decides for latitude 0, longitude 0, where the sun set
    at 18:07 UTC, and sets the dark mode. *)
Lemma main_without_file_decides_for_origin_example :
  exists slept,
    main RefLibm.libm (import_suntime greenwich_world) greenwich_world
      greenwich_world ready_service 1672599600
      {| cr_minute := {| dt_year := 2023; dt_month := 1; dt_day := 1;
                         dt_hour := 19; dt_minute := 0; dt_tzinfo := tzutc |};
         cr_micro := 0 |}
      fresh_machine
    = (Return tt,
       {| cache_file := None; naps := slept;
          issued := str_format cmd "true" :: nil |}).
Proof.
  destruct (main_without_file_decides_for_origin RefLibm.libm
              (import_suntime greenwich_world) greenwich_world
              greenwich_world ready_service 1672599600
              {| cr_minute := {| dt_year := 2023; dt_month := 1; dt_day := 1;
                                 dt_hour := 19; dt_minute := 0;
                                 dt_tzinfo := tzutc |};
                 cr_micro := 0 |}
              fresh_machine eq_refl) as [slept H].
  exists slept. rewrite H. vm_compute. reflexivity.
Defined.

End MainProperties.
